(** * Declared infrastructure of the demo CDK application

    A shallow embedding of [lib/demo-cdk-stack.ts] and [bin/demo-cdk.ts].

    The two stack classes are straight-line constructors: every
    [new X(this, id, props)] registers a child construct under the stack,
    and a handful of method calls ([addIngressRule], [configureHealthCheck],
    [autoScaleTaskCount], [scaleOnCpuUtilization], [cdk.Tags.of(..).add],
    [addCapacity]) mutate a construct declared earlier.  The embedding keeps
    that shape: a construct is the record of the props the source passes,
    the stack is the list of its children in declaration order, and the
    constructor bodies are written in a state-and-error monad over that
    list.  Object references of the source ([vpc], [cluster], ...) are the
    identifiers of the constructs they denote.

    The model records the constructs the two constructors declare
    themselves.  What a library construct creates inside itself (the load
    balancer, its security group and outputs under the service, the groups
    and roles of a cluster's pools, the parameter lookups of the machine
    image) is outside it, so every statement below ranges over the
    source's own declarations and method calls. *)

From Stdlib Require Import String Ascii ZArith List Bool Lia DecimalString.
From ExtLib Require Import Structures.Monad Structures.MonadState Structures.MonadExc.
From ExtLib Require Import Data.Monads.StateMonad Data.Monads.EitherMonad.
Import ListNotations.
Import MonadNotation.
Local Open Scope monad_scope.
Local Open Scope string_scope.
Local Open Scope list_scope.
Local Open Scope Z_scope.

#[local] Existing Instance Monad_stateT.

(** The identifier a construct is registered under in its scope; a
    reference to a construct declared in the same stack is its identifier. *)
Definition ConstructId := string.

(** ** aws-cdk-lib/aws-ec2 *)
Module ec2.

Module SubnetType.
Inductive t := PUBLIC | PRIVATE_WITH_EGRESS | PRIVATE_ISOLATED.
Definition eqb (a b : t) : bool :=
  match a, b with
  | PUBLIC, PUBLIC => true
  | PRIVATE_WITH_EGRESS, PRIVATE_WITH_EGRESS => true
  | PRIVATE_ISOLATED, PRIVATE_ISOLATED => true
  | _, _ => false
  end.
End SubnetType.

Module InstanceClass.
Inductive t := T2 | T3 | M3 | M4 | C3 | C4 | R4 | R5.
End InstanceClass.

Module InstanceSize.
Inductive t := MICRO | LARGE | XLARGE | XLARGE24.
End InstanceSize.

Module InstanceType.
Record t := { instanceClass : InstanceClass.t; instanceSize : InstanceSize.t }.
(** [ec2.InstanceType.of(instanceClass, instanceSize)] *)
Definition of_ (c : InstanceClass.t) (s : InstanceSize.t) : t :=
  {| instanceClass := c; instanceSize := s |}.
End InstanceType.

Record SubnetConfiguration := {
  name : string;
  subnetType : SubnetType.t;
  cidrMask : Z
}.

Record VpcProps := {
  maxAzs : Z;
  natGateways : Z;
  subnetConfiguration : list SubnetConfiguration
}.

(** The [vpcSubnets: { subnetType: ... }] selection. *)
Record SubnetSelection := { selectedSubnetType : SubnetType.t }.

Record SecurityGroupProps := {
  vpc : ConstructId;
  description : string;
  allowAllOutbound : bool
}.

(** Who a rule admits.  [serviceSecurityGroup svc i] is
    [svc.service.connections.securityGroups[i]], a security group the
    load-balanced service construct creates for its tasks. *)
Module Peer.
Inductive t :=
| anyIpv4
| serviceSecurityGroup (service : ConstructId) (index : nat).
End Peer.

Module Port.
Inductive t := tcp (port : Z).
End Port.

Record IngressRule := {
  peer : Peer.t;
  connection : Port.t;
  ruleDescription : string
}.

Module MachineImage.
Inductive t := latestAmazonLinux2.
End MachineImage.

End ec2.

(** ** aws-cdk-lib (core) *)
Module cdk.

Module RemovalPolicy.
Inductive t := DESTROY | RETAIN | SNAPSHOT.
End RemovalPolicy.

Record Environment := {
  account : option string;
  region : option string
}.

Record StackProps := {
  env : option Environment;
  description : option string
}.

(** Attributes of declared constructs that the source reads and passes
    on; they are resolved at deployment, so they stay symbolic. *)
Inductive Token :=
| dbInstanceEndpointAddress (database : ConstructId)
| dbInstanceEndpointPort (database : ConstructId)
| loadBalancerDnsName (service : ConstructId)
| vpcId (vpc : ConstructId)
| autoScalingGroupName (asg : ConstructId)
| clusterName (cluster : ConstructId).

Record CfnOutputProps := {
  value : Token;
  outputDescription : string
}.

End cdk.

(** ** aws-cdk-lib/aws-rds *)
Module rds.

Module PostgresEngineVersion.
Inductive t := VER_15.
End PostgresEngineVersion.

Module SqlServerEngineVersion.
Inductive t := VER_15.
End SqlServerEngineVersion.

Module DatabaseInstanceEngine.
Inductive t :=
| postgres (version : PostgresEngineVersion.t)
| sqlServerEe (version : SqlServerEngineVersion.t).
End DatabaseInstanceEngine.

Module LicenseModel.
Inductive t := LICENSE_INCLUDED | BRING_YOUR_OWN_LICENSE | GENERAL_PUBLIC_LICENSE.
End LicenseModel.

Record DatabaseInstanceProps := {
  engine : DatabaseInstanceEngine.t;
  instanceType : ec2.InstanceType.t;
  vpc : ConstructId;
  vpcSubnets : ec2.SubnetSelection;
  securityGroups : list ConstructId;
  databaseName : option string;
  allocatedStorage : Z;
  maxAllocatedStorage : Z;
  multiAz : bool;
  licenseModel : option LicenseModel.t;
  deletionProtection : bool;
  removalPolicy : cdk.RemovalPolicy.t
}.

End rds.

(** ** aws-cdk-lib/aws-ecs *)
Module ecs.

Module ContainerImage.
Inductive t := fromRegistry (name : string).
End ContainerImage.

Record ClusterProps := {
  vpc : ConstructId;
  containerInsights : option bool;
  clusterName : option string
}.

Record AddCapacityOptions := {
  instanceType : ec2.InstanceType.t;
  minCapacity : Z;
  maxCapacity : Z;
  desiredCapacity : Z
}.

(** What [service.autoScaleTaskCount] is given. *)
Record EnableScalingProps := {
  scalingMinCapacity : Z;
  scalingMaxCapacity : Z
}.

Inductive ScalingPolicy :=
| CpuUtilization (targetUtilizationPercent : Z)
| MemoryUtilization (targetUtilizationPercent : Z).

(** The scalable target [autoScaleTaskCount] returns, with the policies
    attached to it since. *)
Record ScalableTaskCount := {
  bounds : EnableScalingProps;
  policies : list (ConstructId * ScalingPolicy)
}.

End ecs.

(** The health check of the service's target group. *)
Module elbv2.

Record HealthCheck := {
  path : string;
  healthyHttpCodes : string
}.

End elbv2.

(** ** aws-cdk-lib/aws-ecs-patterns *)
Module ecsPatterns.

Record TaskImageOptions := {
  image : ecs.ContainerImage.t;
  containerPort : Z;
  environment : list (string * cdk.Token)
}.

Record ApplicationLoadBalancedFargateServiceProps := {
  cluster : ConstructId;
  cpu : Z;
  memoryLimitMiB : Z;
  desiredCount : Z;
  taskImageOptions : TaskImageOptions;
  publicLoadBalancer : bool
}.

End ecsPatterns.

(** ** aws-cdk-lib/aws-iam *)
Module iam.

Inductive ServicePrincipal := mkServicePrincipal (service : string).

Module ManagedPolicy.
Inductive t := fromAwsManagedPolicyName (name : string).
End ManagedPolicy.

Record RoleProps := {
  assumedBy : ServicePrincipal;
  managedPolicies : list ManagedPolicy.t
}.

End iam.

(** ** aws-cdk-lib/aws-autoscaling *)
Module autoscaling.

Record AutoScalingGroupProps := {
  vpc : ConstructId;
  vpcSubnets : ec2.SubnetSelection;
  instanceType : ec2.InstanceType.t;
  machineImage : ec2.MachineImage.t;
  role : ConstructId;
  securityGroup : ConstructId;
  minCapacity : Z;
  maxCapacity : Z;
  desiredCapacity : Z
}.

End autoscaling.

(** ** The construct tree *)

(** A declared construct: the props it was created with, and the state the
    source's later method calls add to it. *)
Inductive Construct :=
| Vpc (props : ec2.VpcProps)
| Cluster (props : ecs.ClusterProps)
          (capacity : list (ConstructId * ecs.AddCapacityOptions))
| SecurityGroup (props : ec2.SecurityGroupProps)
                (ingressRules : list ec2.IngressRule)
| DatabaseInstance (props : rds.DatabaseInstanceProps)
| ApplicationLoadBalancedFargateService
    (props : ecsPatterns.ApplicationLoadBalancedFargateServiceProps)
    (healthCheck : option elbv2.HealthCheck)
    (scaling : option ecs.ScalableTaskCount)
| Role (props : iam.RoleProps)
| AutoScalingGroup (props : autoscaling.AutoScalingGroupProps)
                   (tags : list (string * string))
| CfnOutput (props : cdk.CfnOutputProps).

(** The children of a scope, in declaration order. *)
Definition Children := list (ConstructId * Construct).

Inductive Error :=
| DuplicateConstruct (id : ConstructId)
| NoSuchConstruct (id : ConstructId)
| NotApplicable (id : ConstructId).

(** Constructor bodies run over the children declared so far and may
    throw. *)
Definition Synth := stateT Children (sum Error).

(** Whether a scope already holds a child under [id]. *)
Definition declares {A : Type} (id : ConstructId) (scope : list (ConstructId * A)) : bool :=
  existsb (String.eqb id) (map fst scope).

Fixpoint lookup (id : ConstructId) (ch : Children) : option Construct :=
  match ch with
  | [] => None
  | (i, c) :: rest => if String.eqb id i then Some c else lookup id rest
  end.

Fixpoint replace (id : ConstructId) (c' : Construct) (ch : Children) : Children :=
  match ch with
  | [] => []
  | (i, c) :: rest =>
      if String.eqb id i then (i, c') :: rest else (i, c) :: replace id c' rest
  end.

(** [new X(this, id, props)] as the source writes it: a scope refuses a
    second child under an identifier it already holds; the new construct
    is returned as the reference later statements use.  Children a
    library construct adds on its own account are not registered. *)
Definition addChild (id : ConstructId) (c : Construct) : Synth ConstructId :=
  ch <- get ;;
  if declares id ch then raise (DuplicateConstruct id)
  else put (ch ++ [(id, c)]) ;; ret id.

(** A method call on a construct declared earlier. *)
Definition mutate (id : ConstructId) (f : Construct -> option Construct) : Synth unit :=
  ch <- get ;;
  match lookup id ch with
  | None => raise (NoSuchConstruct id)
  | Some c =>
      match f c with
      | None => raise (NotApplicable id)
      | Some c' => put (replace id c' ch)
      end
  end.

(** [sg.addIngressRule(peer, connection, description)] *)
Definition addIngressRule (sg : ConstructId) (p : ec2.Peer.t) (c : ec2.Port.t)
    (d : string) : Synth unit :=
  mutate sg (fun k =>
    match k with
    | SecurityGroup props rules =>
        Some (SecurityGroup props
                (rules ++ [{| ec2.peer := p; ec2.connection := c;
                              ec2.ruleDescription := d |}]))
    | _ => None
    end).

(** [service.targetGroup.configureHealthCheck(healthCheck)] *)
Definition configureHealthCheck (svc : ConstructId) (h : elbv2.HealthCheck) : Synth unit :=
  mutate svc (fun k =>
    match k with
    | ApplicationLoadBalancedFargateService props _ sc =>
        Some (ApplicationLoadBalancedFargateService props (Some h) sc)
    | _ => None
    end).

(** [service.service.autoScaleTaskCount(props)]; the scalable target it
    returns is reached through the service. *)
Definition autoScaleTaskCount (svc : ConstructId) (b : ecs.EnableScalingProps)
    : Synth ConstructId :=
  mutate svc (fun k =>
    match k with
    | ApplicationLoadBalancedFargateService props h None =>
        Some (ApplicationLoadBalancedFargateService props h
                (Some {| ecs.bounds := b; ecs.policies := [] |}))
    | _ => None
    end) ;;
  ret svc.

Definition addPolicy (scalingOf : ConstructId) (id : ConstructId)
    (p : ecs.ScalingPolicy) : Synth unit :=
  mutate scalingOf (fun k =>
    match k with
    | ApplicationLoadBalancedFargateService props h (Some sc) =>
        if declares id (ecs.policies sc) then None
        else
          Some (ApplicationLoadBalancedFargateService props h
                  (Some {| ecs.bounds := ecs.bounds sc;
                           ecs.policies := ecs.policies sc ++ [(id, p)] |}))
    | _ => None
    end).

(** [scaling.scaleOnCpuUtilization(id, { targetUtilizationPercent })] *)
Definition scaleOnCpuUtilization (scalingOf : ConstructId) (id : ConstructId)
    (target : Z) : Synth unit :=
  addPolicy scalingOf id (ecs.CpuUtilization target).

(** [scaling.scaleOnMemoryUtilization(id, { targetUtilizationPercent })] *)
Definition scaleOnMemoryUtilization (scalingOf : ConstructId) (id : ConstructId)
    (target : Z) : Synth unit :=
  addPolicy scalingOf id (ecs.MemoryUtilization target).

(** [cdk.Tags.of(asg).add(key, value)]; the source tags auto-scaling
    groups only. *)
Definition Tags_add (asg : ConstructId) (key val : string) : Synth unit :=
  mutate asg (fun k =>
    match k with
    | AutoScalingGroup props tags => Some (AutoScalingGroup props (tags ++ [(key, val)]))
    | _ => None
    end).

(** [cluster.addCapacity(id, options)]: a compute pool declared under the
    cluster. *)
Definition addCapacity (cl : ConstructId) (id : ConstructId)
    (o : ecs.AddCapacityOptions) : Synth unit :=
  mutate cl (fun k =>
    match k with
    | Cluster props cap =>
        if declares id cap then None
        else Some (Cluster props (cap ++ [(id, o)]))
    | _ => None
    end).

(** ** Stacks and the application *)

Record Stack := {
  stackProps : option cdk.StackProps;
  children : Children
}.

(** The root scope: the stacks declared under the [cdk.App], in order. *)
Definition App := list (ConstructId * Stack).

Definition AppM := stateT App (sum Error).

(** What a constructor body declares when run in a new, empty scope. *)
Definition build (body : Synth unit) : Error + Children :=
  execStateT body [].

(** A class extending [cdk.Stack]: [super(scope, id, props)] registers the
    stack under the scope, then the constructor body declares its
    children.  An exception of the body leaves the constructor.  The
    library also checks that the identifier is a well-formed stack name;
    the model is used at identifiers that are, as the two of the entry
    point. *)
Definition newStack (body : Synth unit) (id : ConstructId)
    (props : option cdk.StackProps) : AppM unit :=
  scope <- get ;;
  if declares id scope then raise (DuplicateConstruct id)
  else
    match build body with
    | inl e => raise e
    | inr ch => put (scope ++ [(id, {| stackProps := props; children := ch |})])
    end.

Module DemoCdkStack.

Definition constructor : Synth unit :=
  (* VPC with public and private subnets across 2 AZs *)
  vpc <- addChild "DemoVpc" (Vpc {|
    ec2.maxAzs := 2;
    ec2.natGateways := 1;
    ec2.subnetConfiguration := [
      {| ec2.name := "Public";
         ec2.subnetType := ec2.SubnetType.PUBLIC;
         ec2.cidrMask := 24 |};
      {| ec2.name := "Private";
         ec2.subnetType := ec2.SubnetType.PRIVATE_WITH_EGRESS;
         ec2.cidrMask := 24 |};
      {| ec2.name := "Isolated";
         ec2.subnetType := ec2.SubnetType.PRIVATE_ISOLATED;
         ec2.cidrMask := 24 |}
    ] |}) ;;

  (* ECS Cluster for the web application *)
  cluster <- addChild "DemoCluster" (Cluster {|
    ecs.vpc := vpc;
    ecs.containerInsights := Some true;
    ecs.clusterName := None |} []) ;;

  (* Security group for RDS *)
  dbSecurityGroup <- addChild "DbSecurityGroup" (SecurityGroup {|
    ec2.vpc := vpc;
    ec2.description := "Security group for RDS instance";
    ec2.allowAllOutbound := false |} []) ;;

  (* RDS PostgreSQL database in isolated subnet *)
  database <- addChild "DemoDatabase" (DatabaseInstance {|
    rds.engine := rds.DatabaseInstanceEngine.postgres rds.PostgresEngineVersion.VER_15;
    rds.instanceType :=
      ec2.InstanceType.of_ ec2.InstanceClass.T3 ec2.InstanceSize.MICRO;
    rds.vpc := vpc;
    rds.vpcSubnets := {| ec2.selectedSubnetType := ec2.SubnetType.PRIVATE_ISOLATED |};
    rds.securityGroups := [dbSecurityGroup];
    rds.databaseName := Some "demodb";
    rds.allocatedStorage := 20;
    rds.maxAllocatedStorage := 100;
    rds.multiAz := false;
    rds.licenseModel := None;
    rds.deletionProtection := false;
    rds.removalPolicy := cdk.RemovalPolicy.DESTROY |}) ;;

  (* Fargate service with Application Load Balancer *)
  fargateService <- addChild "DemoWebApp" (ApplicationLoadBalancedFargateService {|
    ecsPatterns.cluster := cluster;
    ecsPatterns.cpu := 256;
    ecsPatterns.memoryLimitMiB := 512;
    ecsPatterns.desiredCount := 2;
    ecsPatterns.taskImageOptions := {|
      ecsPatterns.image := ecs.ContainerImage.fromRegistry "nginx:alpine";
      ecsPatterns.containerPort := 80;
      ecsPatterns.environment := [
        ("DB_HOST", cdk.dbInstanceEndpointAddress database);
        ("DB_PORT", cdk.dbInstanceEndpointPort database)
      ] |};
    ecsPatterns.publicLoadBalancer := true |} None None) ;;

  (* Allow the Fargate service to connect to the database *)
  addIngressRule dbSecurityGroup
    (ec2.Peer.serviceSecurityGroup fargateService 0%nat)
    (ec2.Port.tcp 5432)
    "Allow Fargate service to connect to PostgreSQL" ;;

  (* Health check configuration for the load balancer *)
  configureHealthCheck fargateService {|
    elbv2.path := "/";
    elbv2.healthyHttpCodes := "200" |} ;;

  (* Auto-scaling configuration *)
  scaling <- autoScaleTaskCount fargateService {|
    ecs.scalingMinCapacity := 2;
    ecs.scalingMaxCapacity := 10 |} ;;

  scaleOnCpuUtilization scaling "CpuScaling" 70 ;;

  scaleOnMemoryUtilization scaling "MemoryScaling" 70 ;;

  (* EC2 Auto Scaling Groups with Previous Gen Instance Types *)

  (* Amazon Linux 2 AMI for EC2 instances *)
  let ami := ec2.MachineImage.latestAmazonLinux2 in

  (* Security group for EC2 instances *)
  ec2SecurityGroup <- addChild "Ec2SecurityGroup" (SecurityGroup {|
    ec2.vpc := vpc;
    ec2.description := "Security group for EC2 instances";
    ec2.allowAllOutbound := true |} []) ;;
  addIngressRule ec2SecurityGroup
    ec2.Peer.anyIpv4
    (ec2.Port.tcp 22)
    "Allow SSH access" ;;

  (* IAM role for EC2 instances *)
  ec2Role <- addChild "Ec2InstanceRole" (Role {|
    iam.assumedBy := iam.mkServicePrincipal "ec2.amazonaws.com";
    iam.managedPolicies := [
      iam.ManagedPolicy.fromAwsManagedPolicyName "AmazonSSMManagedInstanceCore"
    ] |}) ;;

  (* ASG 1: Web tier using M4 instances *)
  webTierAsg <- addChild "WebTierAsg" (AutoScalingGroup {|
    autoscaling.vpc := vpc;
    autoscaling.vpcSubnets :=
      {| ec2.selectedSubnetType := ec2.SubnetType.PRIVATE_WITH_EGRESS |};
    autoscaling.instanceType :=
      ec2.InstanceType.of_ ec2.InstanceClass.M4 ec2.InstanceSize.LARGE;
    autoscaling.machineImage := ami;
    autoscaling.role := ec2Role;
    autoscaling.securityGroup := ec2SecurityGroup;
    autoscaling.minCapacity := 2;
    autoscaling.maxCapacity := 8;
    autoscaling.desiredCapacity := 2 |} []) ;;
  Tags_add webTierAsg "Tier" "Web" ;;
  Tags_add webTierAsg "InstanceGeneration" "Previous" ;;

  (* ASG 2: App tier using C4 instances *)
  appTierAsg <- addChild "AppTierAsg" (AutoScalingGroup {|
    autoscaling.vpc := vpc;
    autoscaling.vpcSubnets :=
      {| ec2.selectedSubnetType := ec2.SubnetType.PRIVATE_WITH_EGRESS |};
    autoscaling.instanceType :=
      ec2.InstanceType.of_ ec2.InstanceClass.C4 ec2.InstanceSize.XLARGE;
    autoscaling.machineImage := ami;
    autoscaling.role := ec2Role;
    autoscaling.securityGroup := ec2SecurityGroup;
    autoscaling.minCapacity := 2;
    autoscaling.maxCapacity := 6;
    autoscaling.desiredCapacity := 2 |} []) ;;
  Tags_add appTierAsg "Tier" "Application" ;;
  Tags_add appTierAsg "InstanceGeneration" "Previous" ;;

  (* ASG 3: Worker tier using T2 instances *)
  workerTierAsg <- addChild "WorkerTierAsg" (AutoScalingGroup {|
    autoscaling.vpc := vpc;
    autoscaling.vpcSubnets :=
      {| ec2.selectedSubnetType := ec2.SubnetType.PRIVATE_WITH_EGRESS |};
    autoscaling.instanceType :=
      ec2.InstanceType.of_ ec2.InstanceClass.T2 ec2.InstanceSize.LARGE;
    autoscaling.machineImage := ami;
    autoscaling.role := ec2Role;
    autoscaling.securityGroup := ec2SecurityGroup;
    autoscaling.minCapacity := 1;
    autoscaling.maxCapacity := 10;
    autoscaling.desiredCapacity := 3 |} []) ;;
  Tags_add workerTierAsg "Tier" "Worker" ;;
  Tags_add workerTierAsg "InstanceGeneration" "Previous" ;;

  (* ASG 4: Memory-intensive workloads using R4 instances *)
  memoryTierAsg <- addChild "MemoryTierAsg" (AutoScalingGroup {|
    autoscaling.vpc := vpc;
    autoscaling.vpcSubnets :=
      {| ec2.selectedSubnetType := ec2.SubnetType.PRIVATE_WITH_EGRESS |};
    autoscaling.instanceType :=
      ec2.InstanceType.of_ ec2.InstanceClass.R4 ec2.InstanceSize.LARGE;
    autoscaling.machineImage := ami;
    autoscaling.role := ec2Role;
    autoscaling.securityGroup := ec2SecurityGroup;
    autoscaling.minCapacity := 1;
    autoscaling.maxCapacity := 4;
    autoscaling.desiredCapacity := 2 |} []) ;;
  Tags_add memoryTierAsg "Tier" "Memory" ;;
  Tags_add memoryTierAsg "InstanceGeneration" "Previous" ;;

  (* ECS Cluster with EC2 Capacity (Previous Gen Instances) *)
  ecsEc2Cluster <- addChild "LegacyEcsCluster" (Cluster {|
    ecs.vpc := vpc;
    ecs.containerInsights := None;
    ecs.clusterName := Some "legacy-ec2-cluster" |} []) ;;

  (* Add EC2 capacity with C3 instances *)
  addCapacity ecsEc2Cluster "LegacyCapacity" {|
    ecs.instanceType :=
      ec2.InstanceType.of_ ec2.InstanceClass.C3 ec2.InstanceSize.XLARGE;
    ecs.minCapacity := 2;
    ecs.maxCapacity := 6;
    ecs.desiredCapacity := 2 |} ;;

  (* Add additional capacity with M3 instances *)
  addCapacity ecsEc2Cluster "LegacyCapacityM3" {|
    ecs.instanceType :=
      ec2.InstanceType.of_ ec2.InstanceClass.M3 ec2.InstanceSize.LARGE;
    ecs.minCapacity := 1;
    ecs.maxCapacity := 4;
    ecs.desiredCapacity := 2 |} ;;

  (* Outputs *)
  addChild "LoadBalancerDNS" (CfnOutput {|
    cdk.value := cdk.loadBalancerDnsName fargateService;
    cdk.outputDescription := "Application Load Balancer DNS name" |}) ;;

  addChild "VpcId" (CfnOutput {|
    cdk.value := cdk.vpcId vpc;
    cdk.outputDescription := "VPC ID" |}) ;;

  addChild "DatabaseEndpoint" (CfnOutput {|
    cdk.value := cdk.dbInstanceEndpointAddress database;
    cdk.outputDescription := "RDS Database endpoint" |}) ;;

  addChild "WebTierAsgName" (CfnOutput {|
    cdk.value := cdk.autoScalingGroupName webTierAsg;
    cdk.outputDescription := "Web tier ASG name (M4 instances)" |}) ;;

  addChild "LegacyEcsClusterName" (CfnOutput {|
    cdk.value := cdk.clusterName ecsEc2Cluster;
    cdk.outputDescription := "Legacy ECS cluster with EC2 capacity" |}) ;;

  ret tt.

(** [new DemoCdkStack(scope, id, props)] *)
Definition new (id : ConstructId) (props : option cdk.StackProps) : AppM unit :=
  newStack constructor id props.

End DemoCdkStack.

(** SQL Server Stack for Bahrain Region (me-south-1) *)
Module SqlServerBahrainStack.

Definition constructor : Synth unit :=
  (* VPC for SQL Server in Bahrain *)
  vpc <- addChild "SqlServerVpc" (Vpc {|
    ec2.maxAzs := 2;
    ec2.natGateways := 1;
    ec2.subnetConfiguration := [
      {| ec2.name := "Public";
         ec2.subnetType := ec2.SubnetType.PUBLIC;
         ec2.cidrMask := 24 |};
      {| ec2.name := "Private";
         ec2.subnetType := ec2.SubnetType.PRIVATE_WITH_EGRESS;
         ec2.cidrMask := 24 |};
      {| ec2.name := "Isolated";
         ec2.subnetType := ec2.SubnetType.PRIVATE_ISOLATED;
         ec2.cidrMask := 24 |}
    ] |}) ;;

  (* Security group for SQL Server *)
  sqlServerSecurityGroup <- addChild "SqlServerSecurityGroup" (SecurityGroup {|
    ec2.vpc := vpc;
    ec2.description := "Security group for SQL Server RDS instance";
    ec2.allowAllOutbound := false |} []) ;;

  (* SQL Server Enterprise Multi-AZ in Bahrain (db.r5.24xlarge) *)
  sqlServerDatabase <- addChild "SqlServerEnterprise" (DatabaseInstance {|
    rds.engine :=
      rds.DatabaseInstanceEngine.sqlServerEe rds.SqlServerEngineVersion.VER_15;
    rds.instanceType :=
      ec2.InstanceType.of_ ec2.InstanceClass.R5 ec2.InstanceSize.XLARGE24;
    rds.vpc := vpc;
    rds.vpcSubnets := {| ec2.selectedSubnetType := ec2.SubnetType.PRIVATE_ISOLATED |};
    rds.securityGroups := [sqlServerSecurityGroup];
    rds.databaseName := None;
    rds.allocatedStorage := 200;
    rds.maxAllocatedStorage := 1000;
    rds.multiAz := true;
    rds.licenseModel := Some rds.LicenseModel.LICENSE_INCLUDED;
    rds.deletionProtection := false;
    rds.removalPolicy := cdk.RemovalPolicy.DESTROY |}) ;;

  (* Outputs *)
  addChild "SqlServerEndpoint" (CfnOutput {|
    cdk.value := cdk.dbInstanceEndpointAddress sqlServerDatabase;
    cdk.outputDescription := "SQL Server Enterprise endpoint" |}) ;;

  addChild "SqlServerVpcId" (CfnOutput {|
    cdk.value := cdk.vpcId vpc;
    cdk.outputDescription := "SQL Server VPC ID" |}) ;;

  ret tt.

(** [new SqlServerBahrainStack(scope, id, props)] *)
Definition new (id : ConstructId) (props : option cdk.StackProps) : AppM unit :=
  newStack constructor id props.

End SqlServerBahrainStack.

(** ** bin/demo-cdk.ts *)

(** The props the entry point gives each stack: an empty object for the
    environment-agnostic demo stack, region and description for Bahrain. *)
Definition demoProps : cdk.StackProps :=
  {| cdk.env := None; cdk.description := None |}.

Definition bahrainProps : cdk.StackProps :=
  {| cdk.env := Some {| cdk.account := None; cdk.region := Some "me-south-1" |};
     cdk.description :=
       Some "SQL Server Enterprise Multi-AZ (db.r5.24xlarge) in Bahrain region" |}.

Definition main : AppM unit :=
  (* Main demo stack (environment-agnostic) *)
  DemoCdkStack.new "DemoCdkStack" (Some demoProps) ;;
  (* SQL Server Enterprise Multi-AZ stack in Bahrain region (me-south-1) *)
  SqlServerBahrainStack.new "SqlServerBahrainStack" (Some bahrainProps).

(** [const app = new cdk.App()] followed by the two declarations. *)
Definition app : Error + App := execStateT main [].

(** ** Reading the declared graph *)

Fixpoint findStack (id : ConstructId) (a : App) : option Stack :=
  match a with
  | [] => None
  | (i, st) :: rest => if String.eqb id i then Some st else findStack id rest
  end.

(** The children of the stack the entry point declares under [id]; none
    when the entry point throws or declares no such stack. *)
Definition declaredChildren (id : ConstructId) : Children :=
  match app with
  | inl _ => []
  | inr a =>
      match findStack id a with
      | Some st => children st
      | None => []
      end
  end.

Definition databaseInstancesOf (ch : Children)
    : list (ConstructId * rds.DatabaseInstanceProps) :=
  flat_map (fun e =>
    match e with
    | (id, DatabaseInstance p) => [(id, p)]
    | _ => []
    end) ch.

Definition autoScalingGroupsOf (ch : Children)
    : list (ConstructId * (autoscaling.AutoScalingGroupProps * list (string * string))) :=
  flat_map (fun e =>
    match e with
    | (id, AutoScalingGroup p tags) => [(id, (p, tags))]
    | _ => []
    end) ch.

Definition outputsOf (ch : Children) : list (ConstructId * cdk.CfnOutputProps) :=
  flat_map (fun e =>
    match e with
    | (id, CfnOutput p) => [(id, p)]
    | _ => []
    end) ch.

(** The compute pools attached to the cluster declared under [id]. *)
Definition capacityOf (id : ConstructId) (ch : Children)
    : list (ConstructId * ecs.AddCapacityOptions) :=
  match lookup id ch with
  | Some (Cluster _ cap) => cap
  | _ => []
  end.

(** The value a tag list gives a key: the last [add] wins. *)
Fixpoint tagValue (key : string) (tags : list (string * string)) : option string :=
  match tags with
  | [] => None
  | (k, v) :: rest =>
      match tagValue key rest with
      | Some v' => Some v'
      | None => if String.eqb key k then Some v else None
      end
  end.

(** Every database instance of every stack of the application, with the
    stack that declares it. *)
Definition databasesOfApp (a : App)
    : list (ConstructId * ConstructId * rds.DatabaseInstanceProps) :=
  flat_map (fun s =>
    map (fun d => (fst s, fst d, snd d)) (databaseInstancesOf (children (snd s)))) a.

Definition declaredDatabases
    : list (ConstructId * ConstructId * rds.DatabaseInstanceProps) :=
  match app with
  | inl _ => []
  | inr a => databasesOfApp a
  end.

(** The subnet groups of a network that a selection by subnet type picks. *)
Definition selectedGroups (v : ec2.VpcProps) (sel : ec2.SubnetSelection)
    : list ec2.SubnetConfiguration :=
  filter (fun c => ec2.SubnetType.eqb (ec2.subnetType c) (ec2.selectedSubnetType sel))
         (ec2.subnetConfiguration v).

(** *** What an ingress rule list admits

    A security group denies inbound traffic unless one of its ingress
    rules matches it; a rule matches on the sender (any IPv4 address, or
    membership of the named security group) and on protocol and port. *)

Inductive Protocol := TCP | UDP.

Record Traffic := {
  sourceAddress : Z;
  (** whether the sender belongs to [svc.service.connections.securityGroups[i]] *)
  sourceInServiceGroup : ConstructId -> nat -> bool;
  protocol : Protocol;
  destinationPort : Z
}.

Definition peerAdmits (p : ec2.Peer.t) (t : Traffic) : bool :=
  match p with
  | ec2.Peer.anyIpv4 => true
  | ec2.Peer.serviceSecurityGroup svc i => sourceInServiceGroup t svc i
  end.

Definition portAdmits (c : ec2.Port.t) (t : Traffic) : bool :=
  match c, protocol t with
  | ec2.Port.tcp p, TCP => Z.eqb (destinationPort t) p
  | ec2.Port.tcp _, UDP => false
  end.

Definition ruleAdmits (r : ec2.IngressRule) (t : Traffic) : bool :=
  peerAdmits (ec2.peer r) t && portAdmits (ec2.connection r) t.

Definition ingressAdmits (rules : list ec2.IngressRule) (t : Traffic) : bool :=
  existsb (fun r => ruleAdmits r t) rules.

(** *** What a health-check matcher accepts

    [healthyHttpCodes] is a comma-separated list of status codes and
    ranges [lo-hi]; a response is healthy when one of them covers its
    status. *)

Fixpoint splitOn (sep : ascii) (s : string) : list string :=
  match s with
  | EmptyString => [EmptyString]
  | String c rest =>
      if Ascii.eqb c sep then EmptyString :: splitOn sep rest
      else
        match splitOn sep rest with
        | [] => [String c EmptyString]
        | part :: parts => String c part :: parts
        end
  end.

Definition parseCode (s : string) : option Z :=
  match s with
  | EmptyString => None
  | _ => option_map Z.of_uint (NilEmpty.uint_of_string s)
  end.

Definition matcherAccepts (part : string) (status : Z) : bool :=
  match map parseCode (splitOn "-" part) with
  | [Some code] => Z.eqb status code
  | [Some lo; Some hi] => Z.leb lo status && Z.leb status hi
  | _ => false
  end.

Definition healthy (codes : string) (status : Z) : bool :=
  existsb (fun part => matcherAccepts part status) (splitOn "," codes).

(** A compute pool whose size cannot vary. *)
Definition fixedCapacity (o : ecs.AddCapacityOptions) : bool :=
  Z.eqb (ecs.minCapacity o) (ecs.maxCapacity o).

Definition capacityOrdered (lo desired hi : Z) : Prop :=
  lo <= desired /\ desired <= hi.

(** *** References between constructs

    A construct names others through its props: its network, its security
    groups, its role, its cluster, the constructs whose attributes it
    reads.  The tests below say what each such name has to denote. *)

Definition isVpc (id : ConstructId) (ch : Children) : bool :=
  match lookup id ch with Some (Vpc _) => true | _ => false end.

Definition isCluster (id : ConstructId) (ch : Children) : bool :=
  match lookup id ch with Some (Cluster _ _) => true | _ => false end.

Definition isRole (id : ConstructId) (ch : Children) : bool :=
  match lookup id ch with Some (Role _) => true | _ => false end.

Definition isDatabaseInstance (id : ConstructId) (ch : Children) : bool :=
  match lookup id ch with Some (DatabaseInstance _) => true | _ => false end.

Definition isService (id : ConstructId) (ch : Children) : bool :=
  match lookup id ch with
  | Some (ApplicationLoadBalancedFargateService _ _ _) => true
  | _ => false
  end.

Definition isAutoScalingGroup (id : ConstructId) (ch : Children) : bool :=
  match lookup id ch with Some (AutoScalingGroup _ _) => true | _ => false end.

(** [sg] is a security group of the network [vpc]. *)
Definition securityGroupInVpc (sg vpc : ConstructId) (ch : Children) : bool :=
  match lookup sg ch with
  | Some (SecurityGroup p _) => String.eqb (ec2.vpc p) vpc
  | _ => false
  end.

(** The attribute read belongs to a construct of the kind that has it. *)
Definition tokenResolves (t : cdk.Token) (ch : Children) : bool :=
  match t with
  | cdk.dbInstanceEndpointAddress d => isDatabaseInstance d ch
  | cdk.dbInstanceEndpointPort d => isDatabaseInstance d ch
  | cdk.loadBalancerDnsName s => isService s ch
  | cdk.vpcId v => isVpc v ch
  | cdk.autoScalingGroupName a => isAutoScalingGroup a ch
  | cdk.clusterName c => isCluster c ch
  end.

Definition peerResolves (p : ec2.Peer.t) (ch : Children) : bool :=
  match p with
  | ec2.Peer.anyIpv4 => true
  | ec2.Peer.serviceSecurityGroup svc _ => isService svc ch
  end.

Definition referencesResolve (ch : Children) (c : Construct) : bool :=
  match c with
  | Vpc _ => true
  | Cluster p _ => isVpc (ecs.vpc p) ch
  | SecurityGroup p rules =>
      isVpc (ec2.vpc p) ch
      && forallb (fun r => peerResolves (ec2.peer r) ch) rules
  | DatabaseInstance p =>
      isVpc (rds.vpc p) ch
      && forallb (fun g => securityGroupInVpc g (rds.vpc p) ch) (rds.securityGroups p)
  | ApplicationLoadBalancedFargateService p _ _ =>
      isCluster (ecsPatterns.cluster p) ch
      && forallb (fun e => tokenResolves (snd e) ch)
                 (ecsPatterns.environment (ecsPatterns.taskImageOptions p))
  | Role _ => true
  | AutoScalingGroup p _ =>
      isVpc (autoscaling.vpc p) ch
      && isRole (autoscaling.role p) ch
      && securityGroupInVpc (autoscaling.securityGroup p) (autoscaling.vpc p) ch
  | CfnOutput p => tokenResolves (cdk.value p) ch
  end.

(** Every name used in a stack denotes a construct of that stack, of the
    right kind, and security groups are used within their own network. *)
Definition wellFormed (ch : Children) : bool :=
  forallb (fun e => referencesResolve ch (snd e)) ch.

(** *** Placement *)

(** The network and the [vpcSubnets] selection of the constructs the
    source writes one for: database instances and auto-scaling groups.
    The load balancer, the service's tasks and a cluster's pools are
    placed by the library's defaults and have no selection here. *)
Definition placementOf (c : Construct) : option (ConstructId * ec2.SubnetSelection) :=
  match c with
  | DatabaseInstance p => Some (rds.vpc p, rds.vpcSubnets p)
  | AutoScalingGroup p _ => Some (autoscaling.vpc p, autoscaling.vpcSubnets p)
  | _ => None
  end.

(** For each construct of a stack with a written selection: its
    identifier, the subnet type it selects and the names of the subnet
    groups of its network that the selection picks. *)
Definition placementsOf (ch : Children)
    : list (ConstructId * ec2.SubnetType.t * list string) :=
  flat_map (fun e =>
    match placementOf (snd e) with
    | Some (v, sel) =>
        match lookup v ch with
        | Some (Vpc vp) =>
            [(fst e, ec2.selectedSubnetType sel,
              map ec2.name (selectedGroups vp sel))]
        | _ => [(fst e, ec2.selectedSubnetType sel, [])]
        end
    | None => []
    end) ch.

Definition vpcsOf (ch : Children) : list (ConstructId * ec2.VpcProps) :=
  flat_map (fun e =>
    match e with
    | (id, Vpc p) => [(id, p)]
    | _ => []
    end) ch.

Definition securityGroupsOf (ch : Children)
    : list (ConstructId * (ec2.SecurityGroupProps * list ec2.IngressRule)) :=
  flat_map (fun e =>
    match e with
    | (id, SecurityGroup p rules) => [(id, (p, rules))]
    | _ => []
    end) ch.

Definition rolesOf (ch : Children) : list (ConstructId * iam.RoleProps) :=
  flat_map (fun e =>
    match e with
    | (id, Role p) => [(id, p)]
    | _ => []
    end) ch.

(** The stacks of an application with their props, in declaration order. *)
Definition stackPropsOf (a : App) : list (ConstructId * option cdk.StackProps) :=
  map (fun s => (fst s, stackProps (snd s))) a.

(** * Properties *)

(** ** The construct tree in general *)

(** A property holds of a whole list once a boolean test that implies it
    passes on every element. *)
Lemma Forall_of_forallb {A : Type} (P : A -> Prop) (test : A -> bool) (l : list A) :
  (forall x, test x = true -> P x) ->
  forallb test l = true ->
  Forall P l.
Proof.
  intros Htest Hall. apply Forall_forall. intros x Hin.
  apply Htest. rewrite forallb_forall in Hall. now apply Hall.
Qed.

(** [databasesOfApp] misses no database instance of any stack. *)
Lemma databaseInstancesOf_complete ch id p :
  In (id, DatabaseInstance p) ch -> In (id, p) (databaseInstancesOf ch).
Proof.
  intros Hin. unfold databaseInstancesOf. apply in_flat_map.
  exists (id, DatabaseInstance p). split; [exact Hin | now left].
Qed.

Lemma autoScalingGroupsOf_complete ch id p tags :
  In (id, AutoScalingGroup p tags) ch -> In (id, (p, tags)) (autoScalingGroupsOf ch).
Proof.
  intros Hin. unfold autoScalingGroupsOf. apply in_flat_map.
  exists (id, AutoScalingGroup p tags). split; [exact Hin | now left].
Qed.

Lemma databasesOfApp_complete (a : App) sid st id p :
  In (sid, st) a ->
  In (id, DatabaseInstance p) (children st) ->
  In (sid, id, p) (databasesOfApp a).
Proof.
  intros Hstack Hdb. unfold databasesOfApp. apply in_flat_map.
  exists (sid, st). split; [exact Hstack |].
  apply in_map_iff. exists (id, p). split; [reflexivity |].
  now apply databaseInstancesOf_complete.
Qed.

(** ** The two stacks *)

(** The entry point declares the two stacks, each holding what its
    constructor builds. *)
Lemma app_stacks :
  exists demo bahrain,
    build DemoCdkStack.constructor = inr demo /\
    build SqlServerBahrainStack.constructor = inr bahrain /\
    app = inr [("DemoCdkStack",
                {| stackProps := Some demoProps; children := demo |});
               ("SqlServerBahrainStack",
                {| stackProps := Some bahrainProps; children := bahrain |})].
Proof.
  do 2 eexists. repeat split; vm_compute; reflexivity.
Qed.

(** ** The claims *)

(** C1. In the Primary Application Stack the database's security group
    is declared with outbound traffic disallowed and exactly one ingress
    rule, which lets the load-balanced service's security group reach TCP
    port 5432; the group therefore admits inbound traffic only from
    members of that group, on that port, whatever the sender's address. *)
Theorem db_security_group_single_ingress :
  exists props rules db,
    lookup "DbSecurityGroup" (declaredChildren "DemoCdkStack")
      = Some (SecurityGroup props rules) /\
    ec2.allowAllOutbound props = false /\
    rules = [{| ec2.peer := ec2.Peer.serviceSecurityGroup "DemoWebApp" 0;
                ec2.connection := ec2.Port.tcp 5432;
                ec2.ruleDescription :=
                  "Allow Fargate service to connect to PostgreSQL" |}] /\
    lookup "DemoDatabase" (declaredChildren "DemoCdkStack")
      = Some (DatabaseInstance db) /\
    rds.securityGroups db = ["DbSecurityGroup"] /\
    forall t,
      ingressAdmits rules t = true <->
      sourceInServiceGroup t "DemoWebApp" 0%nat = true /\
      protocol t = TCP /\ destinationPort t = 5432.
Proof.
  do 3 eexists.
  split; [vm_compute; reflexivity |].
  repeat (split; [reflexivity |]).
  intros t. unfold ingressAdmits, ruleAdmits, peerAdmits, portAdmits. cbn.
  rewrite orb_false_r, andb_true_iff.
  destruct (protocol t).
  - rewrite Z.eqb_eq. tauto.
  - split; [intros [_ Hf]; discriminate Hf | intros (_ & Hp & _); discriminate Hp].
Qed.

(** C2. Each of the four auto-scaling groups of the Primary Application
    Stack (tagged Web, Application, Worker, Memory) declares
    minCapacity <= desiredCapacity <= maxCapacity; the web tier declares
    2 <= 2 <= 8 and the worker tier 1 <= 3 <= 10. *)
Theorem asg_capacities_ordered :
  map (fun g => (fst g, tagValue "Tier" (snd (snd g))))
      (autoScalingGroupsOf (declaredChildren "DemoCdkStack"))
    = [("WebTierAsg", Some "Web"); ("AppTierAsg", Some "Application");
       ("WorkerTierAsg", Some "Worker"); ("MemoryTierAsg", Some "Memory")] /\
  Forall (fun g =>
            capacityOrdered (autoscaling.minCapacity (fst (snd g)))
                            (autoscaling.desiredCapacity (fst (snd g)))
                            (autoscaling.maxCapacity (fst (snd g))))
         (autoScalingGroupsOf (declaredChildren "DemoCdkStack")) /\
  (forall id p tags,
     In (id, AutoScalingGroup p tags) (declaredChildren "DemoCdkStack") ->
     capacityOrdered (autoscaling.minCapacity p) (autoscaling.desiredCapacity p)
                     (autoscaling.maxCapacity p)) /\
  (exists p tags,
     lookup "WebTierAsg" (declaredChildren "DemoCdkStack")
       = Some (AutoScalingGroup p tags) /\
     autoscaling.minCapacity p = 2 /\ autoscaling.desiredCapacity p = 2 /\
     autoscaling.maxCapacity p = 8) /\
  (exists p tags,
     lookup "WorkerTierAsg" (declaredChildren "DemoCdkStack")
       = Some (AutoScalingGroup p tags) /\
     autoscaling.minCapacity p = 1 /\ autoscaling.desiredCapacity p = 3 /\
     autoscaling.maxCapacity p = 10).
Proof.
  split; [vm_compute; reflexivity |].
  assert (Hall : Forall (fun g =>
            capacityOrdered (autoscaling.minCapacity (fst (snd g)))
                            (autoscaling.desiredCapacity (fst (snd g)))
                            (autoscaling.maxCapacity (fst (snd g))))
         (autoScalingGroupsOf (declaredChildren "DemoCdkStack"))).
  { apply (Forall_of_forallb _ (fun g =>
               (autoscaling.minCapacity (fst (snd g))
                  <=? autoscaling.desiredCapacity (fst (snd g))) &&
               (autoscaling.desiredCapacity (fst (snd g))
                  <=? autoscaling.maxCapacity (fst (snd g))))).
    - intros g Hg. apply andb_true_iff in Hg as [Hlo Hhi].
      split; now apply Z.leb_le.
    - vm_compute. reflexivity. }
  split; [exact Hall |].
  split.
  - intros id p tags Hin. apply autoScalingGroupsOf_complete in Hin.
    rewrite Forall_forall in Hall. exact (Hall _ Hin).
  - split; do 2 eexists; (split; [vm_compute; reflexivity |]);
      repeat split; reflexivity.
Qed.

(** C3. Every database instance declared in either stack has
    allocatedStorage <= maxAllocatedStorage: the demo stack's database
    declares 20 and 100, the Bahrain stack's database 200 and 1000. *)
Theorem database_storage_bounded :
  map (fun d => (fst d, rds.allocatedStorage (snd d), rds.maxAllocatedStorage (snd d)))
      declaredDatabases
    = [("DemoCdkStack", "DemoDatabase", 20, 100);
       ("SqlServerBahrainStack", "SqlServerEnterprise", 200, 1000)] /\
  Forall (fun d => rds.allocatedStorage (snd d) <= rds.maxAllocatedStorage (snd d))
         declaredDatabases /\
  exists a,
    app = inr a /\
    forall sid st id p,
      In (sid, st) a ->
      In (id, DatabaseInstance p) (children st) ->
      rds.allocatedStorage p <= rds.maxAllocatedStorage p.
Proof.
  split; [vm_compute; reflexivity |].
  assert (Hall : Forall (fun d =>
            rds.allocatedStorage (snd d) <= rds.maxAllocatedStorage (snd d))
          declaredDatabases).
  { apply (Forall_of_forallb _ (fun d =>
             rds.allocatedStorage (snd d) <=? rds.maxAllocatedStorage (snd d))).
    - intros d Hd. now apply Z.leb_le.
    - vm_compute. reflexivity. }
  split; [exact Hall |].
  unfold declaredDatabases in Hall.
  destruct app as [e | a] eqn:Happ.
  - exfalso. destruct app_stacks as (demo & bahrain & _ & _ & Hrun).
    rewrite Happ in Hrun. discriminate Hrun.
  - exists a. split; [reflexivity |].
    intros sid st id p Hstack Hdb.
    rewrite Forall_forall in Hall.
    exact (Hall _ (databasesOfApp_complete a sid st id p Hstack Hdb)).
Qed.

(** C4. The Bahrain stack's database instance is declared with multi-zone
    redundancy enabled, and its subnet selection picks, of the three
    subnet groups of the stack's network, only the fully isolated one. *)
Theorem bahrain_database_multi_az_isolated :
  exists p v,
    lookup "SqlServerEnterprise" (declaredChildren "SqlServerBahrainStack")
      = Some (DatabaseInstance p) /\
    rds.multiAz p = true /\
    rds.vpcSubnets p
      = {| ec2.selectedSubnetType := ec2.SubnetType.PRIVATE_ISOLATED |} /\
    lookup (rds.vpc p) (declaredChildren "SqlServerBahrainStack") = Some (Vpc v) /\
    length (ec2.subnetConfiguration v) = 3%nat /\
    selectedGroups v (rds.vpcSubnets p)
      = [{| ec2.name := "Isolated";
            ec2.subnetType := ec2.SubnetType.PRIVATE_ISOLATED;
            ec2.cidrMask := 24 |}].
Proof.
  do 2 eexists.
  split; [vm_compute; reflexivity |].
  do 2 (split; [reflexivity |]).
  split; [vm_compute; reflexivity |].
  split; reflexivity.
Qed.

(** C6, as stated, fails: the secondary cluster does not have two
    fixed-capacity pools attached, since neither pool has its minimum
    capacity equal to its maximum. *)
Lemma legacy_pools_not_fixed_capacity :
  ~ (length (capacityOf "LegacyEcsCluster" (declaredChildren "DemoCdkStack")) = 2%nat /\
     forallb (fun c => fixedCapacity (snd c))
             (capacityOf "LegacyEcsCluster" (declaredChildren "DemoCdkStack")) = true).
Proof.
  intros [_ Hfixed]. vm_compute in Hfixed. discriminate Hfixed.
Qed.

(** C6, amended. The Primary Application Stack's second container
    cluster is explicitly named and has exactly two compute pools
    attached; both are variable-capacity pools: [LegacyCapacity] ranges
    over 2..6 and [LegacyCapacityM3] over 1..4, each starting from 2
    instances. *)
Theorem legacy_cluster_two_variable_pools :
  exists first second,
    flat_map (fun e => match e with
                       | (id, Cluster p _) => [(id, ecs.clusterName p)]
                       | _ => []
                       end) (declaredChildren "DemoCdkStack")
      = [first; second] /\
    first = ("DemoCluster", None) /\
    second = ("LegacyEcsCluster", Some "legacy-ec2-cluster") /\
    capacityOf (fst first) (declaredChildren "DemoCdkStack") = [] /\
    map (fun c => (fst c, ecs.minCapacity (snd c), ecs.desiredCapacity (snd c),
                   ecs.maxCapacity (snd c)))
        (capacityOf (fst second) (declaredChildren "DemoCdkStack"))
      = [("LegacyCapacity", 2, 2, 6); ("LegacyCapacityM3", 1, 2, 4)] /\
    Forall (fun c =>
              capacityOrdered (ecs.minCapacity (snd c)) (ecs.desiredCapacity (snd c))
                              (ecs.maxCapacity (snd c)) /\
              ecs.minCapacity (snd c) < ecs.maxCapacity (snd c) /\
              fixedCapacity (snd c) = false)
           (capacityOf (fst second) (declaredChildren "DemoCdkStack")).
Proof.
  do 2 eexists.
  split; [vm_compute; reflexivity |].
  do 2 (split; [reflexivity |]).
  split; [vm_compute; reflexivity |].
  split; [vm_compute; reflexivity |].
  apply (Forall_of_forallb _ (fun c =>
           (ecs.minCapacity (snd c) <=? ecs.desiredCapacity (snd c)) &&
           (ecs.desiredCapacity (snd c) <=? ecs.maxCapacity (snd c)) &&
           (ecs.minCapacity (snd c) <? ecs.maxCapacity (snd c)))).
  - intros c Hc. apply andb_true_iff in Hc as [Hc Hlt].
    apply andb_true_iff in Hc as [Hlo Hhi].
    apply Z.leb_le in Hlo, Hhi. apply Z.ltb_lt in Hlt.
    repeat split; try assumption.
    unfold fixedCapacity. apply Z.eqb_neq. lia.
  - vm_compute. reflexivity.
Qed.

(** C7. The Primary Application Stack declares a public load-balanced
    container service whose task count scales between 2 and 10, with a
    CPU and a memory scaling policy that both target 70% utilization, and
    whose health check probes path [/] with matcher [200], which accepts
    status 200 and no other. *)
Theorem web_service_scaling_and_health :
  exists props check scaling,
    lookup "DemoWebApp" (declaredChildren "DemoCdkStack")
      = Some (ApplicationLoadBalancedFargateService props (Some check) (Some scaling)) /\
    ecsPatterns.publicLoadBalancer props = true /\
    ecs.bounds scaling
      = {| ecs.scalingMinCapacity := 2; ecs.scalingMaxCapacity := 10 |} /\
    ecs.scalingMinCapacity (ecs.bounds scaling) <= ecsPatterns.desiredCount props
      <= ecs.scalingMaxCapacity (ecs.bounds scaling) /\
    ecs.policies scaling
      = [("CpuScaling", ecs.CpuUtilization 70);
         ("MemoryScaling", ecs.MemoryUtilization 70)] /\
    check = {| elbv2.path := "/"; elbv2.healthyHttpCodes := "200" |} /\
    forall status, healthy (elbv2.healthyHttpCodes check) status = true <-> status = 200.
Proof.
  do 3 eexists.
  split; [vm_compute; reflexivity |].
  do 2 (split; [reflexivity |]).
  split; [cbn; lia |].
  do 2 (split; [reflexivity |]).
  intros status.
  change (healthy (elbv2.healthyHttpCodes _) status)
    with ((status =? 200) || false).
  rewrite orb_false_r. apply Z.eqb_eq.
Qed.

(** C8. The Primary Application Stack's constructor ends by declaring
    exactly five stack outputs: the load balancer's DNS name, the VPC
    identifier, the database endpoint address, the web tier's
    auto-scaling-group name and the secondary cluster's name; nothing is
    declared after them and no output before them. *)
Theorem demo_stack_outputs :
  exists earlier outputs,
    declaredChildren "DemoCdkStack"
      = earlier ++ map (fun o => (fst o, CfnOutput (snd o))) outputs /\
    outputsOf earlier = [] /\
    outputsOf (declaredChildren "DemoCdkStack") = outputs /\
    map (fun o => (fst o, cdk.value (snd o))) outputs
      = [("LoadBalancerDNS", cdk.loadBalancerDnsName "DemoWebApp");
         ("VpcId", cdk.vpcId "DemoVpc");
         ("DatabaseEndpoint", cdk.dbInstanceEndpointAddress "DemoDatabase");
         ("WebTierAsgName", cdk.autoScalingGroupName "WebTierAsg");
         ("LegacyEcsClusterName", cdk.clusterName "LegacyEcsCluster")] /\
    length outputs = 5%nat.
Proof.
  exists (firstn 12 (declaredChildren "DemoCdkStack")),
         (outputsOf (declaredChildren "DemoCdkStack")).
  split; [vm_compute; reflexivity |].
  split; [vm_compute; reflexivity |].
  split; [vm_compute; reflexivity |].
  split; reflexivity.
Qed.

(** C9. The Primary Application Stack's database instance is declared
    single-zone, placed in the isolated subnet group of the stack's
    network, with deletion protection disabled and removal policy
    DESTROY. *)
Theorem demo_database_unprotected :
  exists p v,
    lookup "DemoDatabase" (declaredChildren "DemoCdkStack")
      = Some (DatabaseInstance p) /\
    rds.multiAz p = false /\
    rds.vpcSubnets p
      = {| ec2.selectedSubnetType := ec2.SubnetType.PRIVATE_ISOLATED |} /\
    lookup (rds.vpc p) (declaredChildren "DemoCdkStack") = Some (Vpc v) /\
    selectedGroups v (rds.vpcSubnets p)
      = [{| ec2.name := "Isolated";
            ec2.subnetType := ec2.SubnetType.PRIVATE_ISOLATED;
            ec2.cidrMask := 24 |}] /\
    rds.deletionProtection p = false /\
    rds.removalPolicy p = cdk.RemovalPolicy.DESTROY.
Proof.
  do 2 eexists.
  split; [vm_compute; reflexivity |].
  do 2 (split; [reflexivity |]).
  split; [vm_compute; reflexivity |].
  repeat split; reflexivity.
Qed.

(** C10. The four auto-scaling groups of the Primary Application Stack
    all use one security group, which allows all outbound traffic and
    whose ingress rule admits TCP port 22 from any IPv4 address: whatever
    the sender, traffic to TCP port 22 is admitted. *)
Theorem ec2_security_group_open_ssh :
  exists props rules,
    lookup "Ec2SecurityGroup" (declaredChildren "DemoCdkStack")
      = Some (SecurityGroup props rules) /\
    map (fun g => (fst g, autoscaling.securityGroup (fst (snd g))))
        (autoScalingGroupsOf (declaredChildren "DemoCdkStack"))
      = [("WebTierAsg", "Ec2SecurityGroup"); ("AppTierAsg", "Ec2SecurityGroup");
         ("WorkerTierAsg", "Ec2SecurityGroup"); ("MemoryTierAsg", "Ec2SecurityGroup")] /\
    ec2.allowAllOutbound props = true /\
    rules = [{| ec2.peer := ec2.Peer.anyIpv4;
                ec2.connection := ec2.Port.tcp 22;
                ec2.ruleDescription := "Allow SSH access" |}] /\
    forall t,
      ingressAdmits rules t = true <-> protocol t = TCP /\ destinationPort t = 22.
Proof.
  do 2 eexists.
  split; [vm_compute; reflexivity |].
  split; [vm_compute; reflexivity |].
  do 2 (split; [reflexivity |]).
  intros t. unfold ingressAdmits, ruleAdmits, peerAdmits, portAdmits. cbn.
  rewrite orb_false_r.
  destruct (protocol t).
  - rewrite Z.eqb_eq. tauto.
  - split; [intros Hf; discriminate Hf | intros [Hp _]; discriminate Hp].
Qed.

(** ** Further properties of the two stacks and the entry point *)

(** X1. The Bahrain stack's database is guarded by one security group,
    which is created with outbound traffic disallowed and never given an
    ingress rule: it admits no inbound traffic at all. *)
Theorem bahrain_security_group_admits_nothing :
  exists props rules db,
    securityGroupsOf (declaredChildren "SqlServerBahrainStack")
      = [("SqlServerSecurityGroup", (props, rules))] /\
    ec2.allowAllOutbound props = false /\
    lookup "SqlServerEnterprise" (declaredChildren "SqlServerBahrainStack")
      = Some (DatabaseInstance db) /\
    rds.securityGroups db = ["SqlServerSecurityGroup"] /\
    forall t, ingressAdmits rules t = false.
Proof.
  do 3 eexists.
  split; [vm_compute; reflexivity |].
  split; [reflexivity |].
  split; [vm_compute; reflexivity |].
  split; [reflexivity |].
  intros t. reflexivity.
Qed.

(** X2. The Bahrain stack's database runs SQL Server Enterprise version
    15 on an R5 24xlarge instance with the licence included, and like the
    demo database it is declared without deletion protection and with
    removal policy DESTROY. *)
Theorem bahrain_database_posture :
  exists p,
    databaseInstancesOf (declaredChildren "SqlServerBahrainStack")
      = [("SqlServerEnterprise", p)] /\
    rds.engine p
      = rds.DatabaseInstanceEngine.sqlServerEe rds.SqlServerEngineVersion.VER_15 /\
    rds.instanceType p
      = ec2.InstanceType.of_ ec2.InstanceClass.R5 ec2.InstanceSize.XLARGE24 /\
    rds.licenseModel p = Some rds.LicenseModel.LICENSE_INCLUDED /\
    rds.databaseName p = None /\
    rds.deletionProtection p = false /\
    rds.removalPolicy p = cdk.RemovalPolicy.DESTROY.
Proof.
  eexists. split; [vm_compute; reflexivity |].
  repeat split; reflexivity.
Qed.

(** X3. The Bahrain stack's constructor ends by declaring exactly two
    outputs, the database's endpoint address and the network's identifier;
    the three constructs before them contain no output. *)
Theorem bahrain_stack_outputs :
  exists earlier outputs,
    declaredChildren "SqlServerBahrainStack"
      = earlier ++ map (fun o => (fst o, CfnOutput (snd o))) outputs /\
    outputsOf earlier = [] /\
    map fst earlier = ["SqlServerVpc"; "SqlServerSecurityGroup"; "SqlServerEnterprise"] /\
    map (fun o => (fst o, cdk.value (snd o))) outputs
      = [("SqlServerEndpoint", cdk.dbInstanceEndpointAddress "SqlServerEnterprise");
         ("SqlServerVpcId", cdk.vpcId "SqlServerVpc")].
Proof.
  exists (firstn 3 (declaredChildren "SqlServerBahrainStack")),
         (outputsOf (declaredChildren "SqlServerBahrainStack")).
  repeat split; vm_compute; reflexivity.
Qed.

(** X4. The entry point declares two stacks, the demo stack first: the
    demo stack gets empty props, so no environment, and the Bahrain stack
    gets region me-south-1 without an account, and a description. *)
Theorem entry_point_stacks :
  exists a,
    app = inr a /\
    stackPropsOf a
      = [("DemoCdkStack",
          Some {| cdk.env := None; cdk.description := None |});
         ("SqlServerBahrainStack",
          Some {| cdk.env := Some {| cdk.account := None;
                                     cdk.region := Some "me-south-1" |};
                  cdk.description :=
                    Some "SQL Server Enterprise Multi-AZ (db.r5.24xlarge) in Bahrain region" |})].
Proof.
  eexists. split; [vm_compute; reflexivity | reflexivity].
Qed.

(** X7. Both stacks declare one network each, with the same layout: at
    most 2 availability zones, 1 NAT gateway, and a public, a private and
    an isolated subnet group of mask 24.  Each subnet type has exactly one
    group, so a selection by subnet type always picks exactly one. *)
Theorem vpc_layouts :
  exists v,
    vpcsOf (declaredChildren "DemoCdkStack") = [("DemoVpc", v)] /\
    vpcsOf (declaredChildren "SqlServerBahrainStack") = [("SqlServerVpc", v)] /\
    ec2.maxAzs v = 2 /\
    ec2.natGateways v = 1 /\
    map (fun c => (ec2.name c, ec2.subnetType c, ec2.cidrMask c))
        (ec2.subnetConfiguration v)
      = [("Public", ec2.SubnetType.PUBLIC, 24);
         ("Private", ec2.SubnetType.PRIVATE_WITH_EGRESS, 24);
         ("Isolated", ec2.SubnetType.PRIVATE_ISOLATED, 24)] /\
    forall ty,
      exists g,
        selectedGroups v {| ec2.selectedSubnetType := ty |} = [g] /\
        ec2.subnetType g = ty.
Proof.
  eexists.
  split; [vm_compute; reflexivity |].
  split; [vm_compute; reflexivity |].
  do 3 (split; [reflexivity |]).
  intros ty. destruct ty; eexists; split; reflexivity.
Qed.

(** X8. The source writes a subnet selection for six constructs: the
    two databases select the isolated group of their network and the four
    auto-scaling groups the private group.  None of these six selections
    names the public group, and each picks a group its network has. *)
Theorem placements_private :
  placementsOf (declaredChildren "DemoCdkStack")
    = [("DemoDatabase", ec2.SubnetType.PRIVATE_ISOLATED, ["Isolated"]);
       ("WebTierAsg", ec2.SubnetType.PRIVATE_WITH_EGRESS, ["Private"]);
       ("AppTierAsg", ec2.SubnetType.PRIVATE_WITH_EGRESS, ["Private"]);
       ("WorkerTierAsg", ec2.SubnetType.PRIVATE_WITH_EGRESS, ["Private"]);
       ("MemoryTierAsg", ec2.SubnetType.PRIVATE_WITH_EGRESS, ["Private"])] /\
  placementsOf (declaredChildren "SqlServerBahrainStack")
    = [("SqlServerEnterprise", ec2.SubnetType.PRIVATE_ISOLATED, ["Isolated"])] /\
  Forall (fun pl => snd (fst pl) <> ec2.SubnetType.PUBLIC /\ snd pl <> [])
         (placementsOf (declaredChildren "DemoCdkStack")
          ++ placementsOf (declaredChildren "SqlServerBahrainStack")).
Proof.
  split; [vm_compute; reflexivity |].
  split; [vm_compute; reflexivity |].
  apply (Forall_of_forallb _ (fun pl =>
           negb (ec2.SubnetType.eqb (snd (fst pl)) ec2.SubnetType.PUBLIC)
           && negb (Nat.eqb (length (snd pl)) 0))).
  - intros [[id ty] groups] Htest. cbn in Htest |- *.
    apply andb_true_iff in Htest as [Hty Hgroups].
    split.
    + intros ->. discriminate Hty.
    + intros ->. discriminate Hgroups.
  - vm_compute. reflexivity.
Qed.

(** X9. In both stacks the construct identifiers are pairwise distinct,
    and every name a construct uses (network, cluster, role, security
    group, the owner of an attribute it reads, the peer of an ingress
    rule) denotes a construct of the same stack of the right kind, with
    security groups used only in their own network. *)
Theorem stacks_well_formed :
  NoDup (map fst (declaredChildren "DemoCdkStack")) /\
  NoDup (map fst (declaredChildren "SqlServerBahrainStack")) /\
  wellFormed (declaredChildren "DemoCdkStack") = true /\
  wellFormed (declaredChildren "SqlServerBahrainStack") = true.
Proof.
  split; [| split; [| split; vm_compute; reflexivity]].
  - assert (Hids : exists ids,
               map fst (declaredChildren "DemoCdkStack") = ids /\
               nodup string_dec ids = ids)
      by (eexists; split; [reflexivity | vm_compute; reflexivity]).
    destruct Hids as (ids & <- & Hno).
    rewrite <- Hno. apply NoDup_nodup.
  - assert (Hids : exists ids,
               map fst (declaredChildren "SqlServerBahrainStack") = ids /\
               nodup string_dec ids = ids)
      by (eexists; split; [reflexivity | vm_compute; reflexivity]).
    destruct Hids as (ids & <- & Hno).
    rewrite <- Hno. apply NoDup_nodup.
Qed.

(** X10. The load-balanced service runs on the first cluster, which has
    container insights enabled and no compute pool; it runs nginx:alpine
    on container port 80 with 256 CPU units and 512 MiB, starting from 2
    tasks; its environment binds DB_HOST and DB_PORT to the endpoint
    address and port of the very database whose security group admits
    this service, and the DatabaseEndpoint output reads that address. *)
Theorem service_database_wiring :
  exists sp check scaling cp db gp rules r,
    lookup "DemoWebApp" (declaredChildren "DemoCdkStack")
      = Some (ApplicationLoadBalancedFargateService sp check scaling) /\
    lookup (ecsPatterns.cluster sp) (declaredChildren "DemoCdkStack")
      = Some (Cluster cp []) /\
    ecsPatterns.cluster sp = "DemoCluster" /\
    ecs.containerInsights cp = Some true /\
    (ecsPatterns.cpu sp, ecsPatterns.memoryLimitMiB sp, ecsPatterns.desiredCount sp)
      = (256, 512, 2) /\
    ecsPatterns.image (ecsPatterns.taskImageOptions sp)
      = ecs.ContainerImage.fromRegistry "nginx:alpine" /\
    ecsPatterns.containerPort (ecsPatterns.taskImageOptions sp) = 80 /\
    ecsPatterns.environment (ecsPatterns.taskImageOptions sp)
      = [("DB_HOST", cdk.dbInstanceEndpointAddress "DemoDatabase");
         ("DB_PORT", cdk.dbInstanceEndpointPort "DemoDatabase")] /\
    lookup "DemoDatabase" (declaredChildren "DemoCdkStack")
      = Some (DatabaseInstance db) /\
    rds.engine db
      = rds.DatabaseInstanceEngine.postgres rds.PostgresEngineVersion.VER_15 /\
    rds.databaseName db = Some "demodb" /\
    map (fun g => lookup g (declaredChildren "DemoCdkStack")) (rds.securityGroups db)
      = [Some (SecurityGroup gp rules)] /\
    rules = [r] /\
    ec2.peer r = ec2.Peer.serviceSecurityGroup "DemoWebApp" 0 /\
    lookup "DatabaseEndpoint" (declaredChildren "DemoCdkStack")
      = Some (CfnOutput {| cdk.value := cdk.dbInstanceEndpointAddress "DemoDatabase";
                           cdk.outputDescription := "RDS Database endpoint" |}).
Proof.
  do 8 eexists.
  split; [vm_compute; reflexivity |].
  split; [vm_compute; reflexivity |].
  do 6 (split; [reflexivity |]).
  split; [vm_compute; reflexivity |].
  do 2 (split; [reflexivity |]).
  split; [vm_compute; reflexivity |].
  do 2 (split; [reflexivity |]).
  vm_compute. reflexivity.
Qed.

(** X11. The demo stack declares one role, assumable by
    ec2.amazonaws.com and carrying the single managed policy
    AmazonSSMManagedInstanceCore; the four auto-scaling groups all use
    that role, the same network and the Amazon Linux 2 image.  The
    Bahrain stack declares no role and no auto-scaling group. *)
Theorem asg_shared_configuration :
  rolesOf (declaredChildren "DemoCdkStack")
    = [("Ec2InstanceRole",
        {| iam.assumedBy := iam.mkServicePrincipal "ec2.amazonaws.com";
           iam.managedPolicies :=
             [iam.ManagedPolicy.fromAwsManagedPolicyName
                "AmazonSSMManagedInstanceCore"] |})] /\
  Forall (fun g =>
            autoscaling.role (fst (snd g)) = "Ec2InstanceRole" /\
            autoscaling.vpc (fst (snd g)) = "DemoVpc" /\
            autoscaling.machineImage (fst (snd g))
              = ec2.MachineImage.latestAmazonLinux2)
         (autoScalingGroupsOf (declaredChildren "DemoCdkStack")) /\
  length (autoScalingGroupsOf (declaredChildren "DemoCdkStack")) = 4%nat /\
  rolesOf (declaredChildren "SqlServerBahrainStack") = [] /\
  autoScalingGroupsOf (declaredChildren "SqlServerBahrainStack") = [].
Proof.
  split; [vm_compute; reflexivity |].
  split.
  - apply (Forall_of_forallb _ (fun g =>
             String.eqb (autoscaling.role (fst (snd g))) "Ec2InstanceRole"
             && String.eqb (autoscaling.vpc (fst (snd g))) "DemoVpc")).
    + intros [id [p tags]] Htest. cbn in Htest |- *.
      apply andb_true_iff in Htest as [Hrole Hvpc].
      apply String.eqb_eq in Hrole, Hvpc.
      repeat split; try assumption.
      now destruct (autoscaling.machineImage p).
    + vm_compute. reflexivity.
  - repeat split; vm_compute; reflexivity.
Qed.

(** X12. The source gives the four auto-scaling groups the instance
    types m4.large, c4.xlarge, t2.large and r4.large and adds to each a
    Tier tag and the tag InstanceGeneration = Previous; the legacy
    cluster's two pools get c3.xlarge and m3.large, and the two databases
    t3.micro and r5.24xlarge. *)
Theorem compute_pool_instance_types :
  map (fun g => (fst g, autoscaling.instanceType (fst (snd g)),
                 tagValue "Tier" (snd (snd g)),
                 tagValue "InstanceGeneration" (snd (snd g))))
      (autoScalingGroupsOf (declaredChildren "DemoCdkStack"))
    = [("WebTierAsg", ec2.InstanceType.of_ ec2.InstanceClass.M4 ec2.InstanceSize.LARGE,
        Some "Web", Some "Previous");
       ("AppTierAsg", ec2.InstanceType.of_ ec2.InstanceClass.C4 ec2.InstanceSize.XLARGE,
        Some "Application", Some "Previous");
       ("WorkerTierAsg", ec2.InstanceType.of_ ec2.InstanceClass.T2 ec2.InstanceSize.LARGE,
        Some "Worker", Some "Previous");
       ("MemoryTierAsg", ec2.InstanceType.of_ ec2.InstanceClass.R4 ec2.InstanceSize.LARGE,
        Some "Memory", Some "Previous")] /\
  map (fun c => (fst c, ecs.instanceType (snd c)))
      (capacityOf "LegacyEcsCluster" (declaredChildren "DemoCdkStack"))
    = [("LegacyCapacity",
        ec2.InstanceType.of_ ec2.InstanceClass.C3 ec2.InstanceSize.XLARGE);
       ("LegacyCapacityM3",
        ec2.InstanceType.of_ ec2.InstanceClass.M3 ec2.InstanceSize.LARGE)] /\
  map (fun d => (snd (fst d), rds.instanceType (snd d))) declaredDatabases
    = [("DemoDatabase",
        ec2.InstanceType.of_ ec2.InstanceClass.T3 ec2.InstanceSize.MICRO);
       ("SqlServerEnterprise",
        ec2.InstanceType.of_ ec2.InstanceClass.R5 ec2.InstanceSize.XLARGE24)].
Proof.
  repeat split; vm_compute; reflexivity.
Qed.

(** X13. The two constructors create three security groups themselves.
    Of the ingress rules the source adds to them, the only one open to
    any IPv4 address is the SSH rule on TCP port 22, and the groups the
    source attaches to its databases are created with outbound traffic
    disallowed. *)
Theorem security_group_inventory :
  map (fun g => (fst g, ec2.allowAllOutbound (fst (snd g)), length (snd (snd g))))
      (securityGroupsOf (declaredChildren "DemoCdkStack")
       ++ securityGroupsOf (declaredChildren "SqlServerBahrainStack"))
    = [("DbSecurityGroup", false, 1%nat); ("Ec2SecurityGroup", true, 1%nat);
       ("SqlServerSecurityGroup", false, 0%nat)] /\
  Forall (fun g =>
            forall r, In r (snd (snd g)) ->
                      ec2.peer r = ec2.Peer.anyIpv4 ->
                      ec2.connection r = ec2.Port.tcp 22)
         (securityGroupsOf (declaredChildren "DemoCdkStack")
          ++ securityGroupsOf (declaredChildren "SqlServerBahrainStack")) /\
  Forall (fun d =>
            forall g, In g (rds.securityGroups (snd d)) ->
              exists sg,
                In sg (securityGroupsOf (declaredChildren (fst (fst d)))) /\
                fst sg = g /\
                ec2.allowAllOutbound (fst (snd sg)) = false)
         declaredDatabases.
Proof.
  split; [vm_compute; reflexivity |].
  split.
  - apply (Forall_of_forallb _ (fun g =>
             forallb (fun r =>
                        match ec2.peer r, ec2.connection r with
                        | ec2.Peer.anyIpv4, ec2.Port.tcp p => Z.eqb p 22
                        | _, _ => true
                        end) (snd (snd g)))).
    + intros g Htest r Hin Hpeer. rewrite forallb_forall in Htest.
      specialize (Htest r Hin). rewrite Hpeer in Htest.
      destruct (ec2.connection r) as [p]. apply Z.eqb_eq in Htest. now subst.
    + vm_compute. reflexivity.
  - apply (Forall_of_forallb _ (fun d =>
             forallb (fun g =>
                        existsb (fun sg =>
                                   String.eqb (fst sg) g
                                   && negb (ec2.allowAllOutbound (fst (snd sg))))
                                (securityGroupsOf (declaredChildren (fst (fst d)))))
                     (rds.securityGroups (snd d)))).
    + intros d Htest g Hin. rewrite forallb_forall in Htest.
      specialize (Htest g Hin). apply existsb_exists in Htest as (sg & Hsg & Hok).
      apply andb_true_iff in Hok as [Hname Hout].
      exists sg. split; [exact Hsg |].
      split; [now apply String.eqb_eq | now apply negb_true_iff].
    + vm_compute. reflexivity.
Qed.
